(** * pyfaup.tldextract: splitting a host into subdomain, domain and suffix

    A shallow embedding of [src/lib/bindings/python/pyfaup/tldextract.py]:
    the string operations the module uses, with the typing the
    interpreter gives them, the matcher
    [_PublicSuffixListTLDExtractor.extract], the class [ExtractResult],
    the extractor object [TLDExtract] with its lazily resolved rule set,
    and the properties the specification states about them. *)

From Stdlib Require Import Ascii String.
From stdpp Require Import gmap strings list.

Local Open Scope string_scope.
Local Open Scope list_scope.
Local Open Scope nat_scope.

(** ** String operations on the characters *)

Module PyStr.

(** [s.split(sep)] for a one-character separator: never empty. *)
Fixpoint split (sep : ascii) (s : string) : list string :=
  match s with
  | EmptyString => [EmptyString]
  | String c s' =>
      if Ascii.eqb c sep then EmptyString :: split sep s'
      else match split sep s' with
           | [] => [String c EmptyString]
           | l :: ls => String c l :: ls
           end
  end.

(** [sep.join(ls)]. *)
Fixpoint join (sep : string) (ls : list string) : string :=
  match ls with
  | [] => EmptyString
  | [l] => l
  | l :: ls' => l +:+ sep +:+ join sep ls'
  end.

(** [s.rpartition(sep)] for a one-character separator: cut at the last
    occurrence of [sep]; when there is none the result is [('', '', s)]. *)
Fixpoint rpartition (sep : ascii) (s : string) : string * string * string :=
  match s with
  | EmptyString => (EmptyString, EmptyString, EmptyString)
  | String c s' =>
      match rpartition sep s' with
      | (h, String m _, t) => (String c h, String m EmptyString, t)
      | (_, EmptyString, t) =>
          if Ascii.eqb c sep then (EmptyString, String sep EmptyString, t)
          else (EmptyString, EmptyString, String c t)
      end
  end.

End PyStr.

(** ** String objects under the interpreter's typing

    The module imports [urllib.request] and calls [print] with [file=]:
    it runs on Python 3, where text and byte strings are different
    types. *)

Module PyTyping.

Inductive pyobj :=
  | Str (s : string)
  | Bytes (b : string).

Inductive result (A : Type) :=
  | Ok (a : A)
  | TypeError.
Arguments Ok {A} a.
Arguments TypeError {A}.

(** [bytes(x)] with one argument: a text string needs an encoding. *)
Definition bytes_ (x : pyobj) : result pyobj :=
  match x with
  | Str _ => TypeError
  | Bytes b => Ok (Bytes b)
  end.

(** [x.split(sep)] for a one-character separator, which must have the
    type of [x]. *)
Definition split_ (x sep : pyobj) : result (list pyobj) :=
  match x, sep with
  | Str s, Str (String c EmptyString) => Ok (Str <$> PyStr.split c s)
  | Bytes b, Bytes (String c EmptyString) => Ok (Bytes <$> PyStr.split c b)
  | _, _ => TypeError
  end.

(** Line 203: [spl = bytes(netloc).split('.')]. *)
Definition extract_spl (netloc : pyobj) : result (list pyobj) :=
  match bytes_ netloc with
  | Ok b => split_ b (Str ".")
  | TypeError => TypeError
  end.

(** The characters of the items when all of them are text strings, or
    all of them byte strings. *)
Fixpoint texts (items : list pyobj) : result (list string) :=
  match items with
  | [] => Ok []
  | Str s :: items' =>
      match texts items' with
      | Ok l => Ok (s :: l)
      | TypeError => TypeError
      end
  | Bytes _ :: _ => TypeError
  end.
Fixpoint octets (items : list pyobj) : result (list string) :=
  match items with
  | [] => Ok []
  | Bytes b :: items' =>
      match octets items' with
      | Ok l => Ok (b :: l)
      | TypeError => TypeError
      end
  | Str _ :: _ => TypeError
  end.

(** [sep.join(items)]: every item must have the type of [sep]. *)
Definition join_ (sep : pyobj) (items : list pyobj) : result pyobj :=
  match sep with
  | Str s =>
      match texts items with
      | Ok l => Ok (Str (PyStr.join s l))
      | TypeError => TypeError
      end
  | Bytes b =>
      match octets items with
      | Ok l => Ok (Bytes (PyStr.join b l))
      | TypeError => TypeError
      end
  end.

(** [x + y]. *)
Definition add_ (x y : pyobj) : result pyobj :=
  match x, y with
  | Str a, Str b => Ok (Str (a +:+ b))
  | Bytes a, Bytes b => Ok (Bytes (a +:+ b))
  | _, _ => TypeError
  end.

(** [x in tlds] for a set of text strings: a byte string equals none of
    them. *)
Definition in_ (x : pyobj) (tlds : gset string) : bool :=
  match x with
  | Str s => bool_decide (s ∈ tlds)
  | Bytes _ => false
  end.

(** [x.rpartition(sep)] for a one-character separator, which must have
    the type of [x]. *)
Definition rpartition_ (x sep : pyobj) : result (pyobj * pyobj * pyobj) :=
  match x, sep with
  | Str s, Str (String c EmptyString) =>
      let '(h, m, t) := PyStr.rpartition c s in Ok (Str h, Str m, Str t)
  | Bytes b, Bytes (String c EmptyString) =>
      let '(h, m, t) := PyStr.rpartition c b in Ok (Bytes h, Bytes m, Bytes t)
  | _, _ => TypeError
  end.

End PyTyping.

#[global] Instance result_ret : MRet PyTyping.result := λ A a, PyTyping.Ok a.
#[global] Instance result_bind : MBind PyTyping.result := λ A B f m,
  match m with
  | PyTyping.Ok a => f a
  | PyTyping.TypeError => PyTyping.TypeError
  end.

(** ** The matcher: [_PublicSuffixListTLDExtractor] *)

(** [self.tlds]: the rule strings, text strings used only through [in]. *)
Record _PublicSuffixListTLDExtractor := PublicSuffixList { tlds : gset string }.

(** The body of [for i in range(len(spl))], over the indices still to
    visit; the value after the loop is [(netloc, b'')]. *)
Fixpoint extract_loop (T : gset string) (netloc : PyTyping.pyobj)
    (spl : list PyTyping.pyobj) (idx : list nat)
    : PyTyping.result (PyTyping.pyobj * PyTyping.pyobj) :=
  match idx with
  | [] => mret (netloc, PyTyping.Bytes "")
  | i :: idx' =>
      maybe_tld ← PyTyping.join_ (PyTyping.Bytes ".") (drop i spl);
      exception_tld ← PyTyping.add_ (PyTyping.Bytes "!") maybe_tld;
      if PyTyping.in_ exception_tld T
      then
        registered ← PyTyping.join_ (PyTyping.Bytes ".") (take (S i) spl);
        suffix ← PyTyping.join_ (PyTyping.Str ".") (drop (S i) spl);
        mret (registered, suffix)
      else
        rest ← PyTyping.join_ (PyTyping.Bytes ".") (drop (S i) spl);
        wildcard_tld ← PyTyping.add_ (PyTyping.Bytes "*.") rest;
        if PyTyping.in_ wildcard_tld T || PyTyping.in_ maybe_tld T
        then
          registered ← PyTyping.join_ (PyTyping.Bytes ".") (take i spl);
          mret (registered, maybe_tld)
        else extract_loop T netloc spl idx'
  end.

Definition extract (self : _PublicSuffixListTLDExtractor)
    (netloc : PyTyping.pyobj)
    : PyTyping.result (PyTyping.pyobj * PyTyping.pyobj) :=
  spl ← PyTyping.extract_spl netloc;
  extract_loop (tlds self) netloc spl (seq 0 (length spl)).

(** ** [ExtractResult]: the tuple subclass of three fields *)

Module ExtractResult.

Record t := new { subdomain : string; domain : string; tld : string }.

Definition _fields : list string := ["subdomain"; "domain"; "tld"].

(** The underlying tuple, [r[i]], and the three properties
    ([property(itemgetter(i))]) by name. *)
Definition as_tuple (r : t) : list string := [subdomain r; domain r; tld r].
Definition getitem (r : t) (i : nat) : option string := as_tuple r !! i.
Definition getattr (r : t) (name : string) : option string :=
  if decide (name = "subdomain") then getitem r 0
  else if decide (name = "domain") then getitem r 1
  else if decide (name = "tld") then getitem r 2
  else None.

(** The methods of the class.  Fields are strings here, as the module
    fills them; the class itself accepts any object. *)
Inductive exn := TypeError | ValueError.

(** [_make]: the tuple of the iterable, refused unless it has three
    items. *)
Definition _make (iterable : list string) : exn + t :=
  if decide (length iterable ≠ 3) then inl TypeError
  else inr (new (default "" (iterable !! 0)) (default "" (iterable !! 1))
              (default "" (iterable !! 2))).

(** [_asdict]: [dict(list(zip(self._fields, self)))]. *)
Definition _asdict (r : t) : gmap string string :=
  list_to_map (zip _fields (as_tuple r)).

(** [kwds.pop(key, default)]: the value and the dictionary without the
    key. *)
Definition pop (key dflt : string) (kwds : gmap string string)
    : string * gmap string string :=
  (default dflt (kwds !! key), delete key kwds).

(** [_replace] with its keyword arguments [kwds].  A keyword named
    [self] collides with the first parameter of the method and the call
    itself raises [TypeError].  Otherwise each field is popped from the
    keywords, with the field's value as default, left to right; keywords
    left over are refused after the new tuple is made. *)
Definition _replace (r : t) (kwds : gmap string string) : exn + t :=
  if decide ("self" ∈ dom kwds) then inl TypeError
  else
    let '(v0, kwds0) := pop "subdomain" (subdomain r) kwds in
    let '(v1, kwds1) := pop "domain" (domain r) kwds0 in
    let '(v2, kwds2) := pop "tld" (tld r) kwds1 in
    match _make [v0; v1; v2] with
    | inl e => inl e
    | inr result => if decide (kwds2 = ∅) then inr result else inl ValueError
    end.

(** [__getnewargs__]: the plain tuple, from which [__new__] rebuilds. *)
Definition __getnewargs__ (r : t) : list string := as_tuple r.

End ExtractResult.

(** ** The extractor object and the world it resolves its rules from *)

Record TLDExtract := mkTLDExtract {
  fetch : bool;
  cache_file : string;
  _extractor : option _PublicSuffixListTLDExtractor;
  tld : PyTyping.pyobj;
  domain : PyTyping.pyobj;
  subdomain : PyTyping.pyobj
}.

(** What a path holds: the pickle of a rule set, as line 177 writes it;
    a file [open] refuses with an [IOError] other than [ENOENT]; or
    anything else on which the [with] statement of line 146 raises an
    exception that is not an [IOError] (content that is no pickle, a
    path [open] refuses with [ValueError]).  A path absent from the map
    does not exist. *)
Inductive file_state :=
  | Pickled (s : gset string)
  | Unreadable
  | Corrupt.

(** What [urlopen(url).read()] does: a page, [URLError], or another
    exception, which [_fetch_page] does not catch. *)
Inductive url_outcome :=
  | Page (text : string)
  | URLError
  | UrlFailure.

(** How the write of lines 175 to 179 ends: it succeeds; [open] raises
    [IOError] and the file is untouched; [pickle.dump] raises [IOError]
    on the file [open] has created or truncated; or one of the two
    raises another exception, which the [except IOError] clause does not
    catch. *)
Inductive write_outcome :=
  | WriteOk
  | OpenIOError
  | DumpIOError
  | OpenOtherError
  | DumpOtherError.

Inductive event :=
  | OpenRead (path : string)
  | LogError
  | UrlOpen
  | LoadSnapshot
  | LogInfo
  | PrintDiff
  | OpenWrite (path : string)
  | LogWarn.

Record World := mkWorld {
  files : gmap string file_state;
  write : write_outcome;
  remote : url_outcome;
  snapshot : option (gset string);
  debug : bool;                     (* [LOG.isEnabledFor(logging.DEBUG)] *)
  trace : list event                (* newest first *)
}.

(** [snapshot] is what [pickle.load] of the resource [.tld_set_snapshot]
    gives; [None] when loading it raises, as it always does through the
    fallback class of lines 42 to 50, whose [resource_stream] opens the
    resource in text mode.  [PrintDiff] stands for the loop of lines 172
    and 173, which prints the lines of the diff, if any. *)

Inductive exn := SnapshotError | FetchError | WriteError | TypeError.

Inductive outcome (A : Type) :=
  | Return (a : A)
  | Raise (e : exn).
Arguments Return {A} a.
Arguments Raise {A} e.

(** What a call returns to its caller. *)
Inductive pyvalue :=
  | PyNone
  | PyExtractResult (r : ExtractResult.t).

Record Heap := mkHeap { self : TLDExtract; world : World }.

(** Methods run on the object and the world and may raise. *)
Definition M (A : Type) : Type := Heap → outcome A * Heap.

#[global] Instance M_ret : MRet M := λ A a h, (Return a, h).
#[global] Instance M_bind : MBind M := λ A B f m h,
  match m h with
  | (Return a, h') => f a h'
  | (Raise e, h') => (Raise e, h')
  end.

Definition raise {A} (e : exn) : M A := λ h, (Raise e, h).
Definition get_self : M TLDExtract := λ h, (Return (self h), h).
Definition get_world : M World := λ h, (Return (world h), h).
Definition put_self (o : TLDExtract) : M unit :=
  λ h, (Return tt, mkHeap o (world h)).
Definition put_world (w : World) : M unit :=
  λ h, (Return tt, mkHeap (self h) w).

(** A [TypeError] of a string operation, raised in a method. *)
Definition lift {A} (m : PyTyping.result A) : M A :=
  match m with
  | PyTyping.Ok a => mret a
  | PyTyping.TypeError => raise TypeError
  end.

Definition emit (e : event) : M unit :=
  w ← get_world;
  put_world (mkWorld (files w) (write w) (remote w) (snapshot w) (debug w)
               (e :: trace w)).

Definition put_file (path : string) (content : file_state) : M unit :=
  w ← get_world;
  put_world (mkWorld (<[path := content]> (files w)) (write w) (remote w)
               (snapshot w) (debug w) (trace w)).

(** Attribute assignments on [self]. *)
Definition set__extractor (e : _PublicSuffixListTLDExtractor) : M unit :=
  o ← get_self;
  put_self (mkTLDExtract (fetch o) (cache_file o) (Some e)
              (tld o) (domain o) (subdomain o)).
Definition set_tld (v : PyTyping.pyobj) : M unit :=
  o ← get_self;
  put_self (mkTLDExtract (fetch o) (cache_file o) (_extractor o)
              v (domain o) (subdomain o)).
Definition set_subdomain (v : PyTyping.pyobj) : M unit :=
  o ← get_self;
  put_self (mkTLDExtract (fetch o) (cache_file o) (_extractor o)
              (tld o) (domain o) v).
Definition set_domain (v : PyTyping.pyobj) : M unit :=
  o ← get_self;
  put_self (mkTLDExtract (fetch o) (cache_file o) (_extractor o)
              (tld o) v (subdomain o)).

(** [TLDExtract.__init__]; [default_cache_file] stands for
    [os.path.join(os.path.dirname(__file__), '.tld_set')]. *)
Definition __init__ (default_cache_file : string) (fetch : bool)
    (cache_file : string) : TLDExtract :=
  {| fetch := fetch;
     cache_file := if decide (cache_file = "") then default_cache_file
                   else cache_file;
     _extractor := None;
     tld := PyTyping.Str "";
     domain := PyTyping.Str "";
     subdomain := PyTyping.Str "" |}.

(** [with open(path) as f: pickle.load(f)], as the [try] of line 145 sees
    it: the loaded set, or which [except] clause is taken. *)
Inductive read_result :=
  | ReadOk (s : gset string)
  | ReadENOENT
  | ReadIOError
  | ReadException.

(** Line 146 opens the file in text mode, and [pickle.load] raises on a
    text file whatever it holds: no file gives [ReadOk], also not one
    written by line 177. *)
Definition load_cache (path : string) : M read_result :=
  emit (OpenRead path);;
  w ← get_world;
  mret (match files w !! path with
        | None => ReadENOENT
        | Some Unreadable => ReadIOError
        | Some (Pickled _) | Some Corrupt => ReadException
        end).

(** The two [except] clauses of lines 149 to 154: a missing file is
    silent, any other failure is logged. *)
Definition log_cache_miss (r : read_result) : M unit :=
  match r with
  | ReadIOError | ReadException => emit LogError
  | ReadENOENT | ReadOk _ => mret tt
  end.

(** [pickle.load] of the bundled [.tld_set_snapshot]; not guarded. *)
Definition load_snapshot : M (gset string) :=
  emit LoadSnapshot;;
  w ← get_world;
  match snapshot w with
  | Some s => mret s
  | None => raise SnapshotError
  end.

(** Lines 175 to 179: the write in binary mode; an [IOError] is logged
    as a warning, any other exception leaves the method. *)
Definition store_cache (path : string) (s : gset string) : M unit :=
  emit (OpenWrite path);;
  w ← get_world;
  match write w with
  | WriteOk => put_file path (Pickled s)
  | OpenIOError => emit LogWarn
  | DumpIOError => put_file path Corrupt;; emit LogWarn
  | OpenOtherError => raise WriteError
  | DumpOtherError => put_file path Corrupt;; raise WriteError
  end.

Definition _fetch_page : M string :=
  emit UrlOpen;;
  w ← get_world;
  match remote w with
  | Page text => mret text
  | URLError => emit LogError;; mret ""
  | UrlFailure => raise FetchError
  end.

Section Provider.

(** The rule tokens [tld_finder.finditer] finds in a page. *)
Variable tld_finder : string → list string.

Definition _PublicSuffixListSource : M (list string) :=
  page ← _fetch_page;
  mret (tld_finder page).

Definition _get_tld_extractor : M _PublicSuffixListTLDExtractor :=
  o ← get_self;
  match _extractor o with
  | Some e => mret e
  | None =>
      let cached_file := cache_file o in
      r ← load_cache cached_file;
      match r with
      | ReadOk s =>
          set__extractor (PublicSuffixList s);;
          mret (PublicSuffixList s)
      | _ =>
          log_cache_miss r;;
          T ← (if fetch o
               then src ← _PublicSuffixListSource;
                    mret (list_to_set src : gset string)
               else mret (∅ : gset string));
          if decide (T = ∅)
          then
            s ← load_snapshot;
            set__extractor (PublicSuffixList s);;
            mret (PublicSuffixList s)
          else
            emit LogInfo;;
            w ← get_world;
            (if debug w
             then _ ← load_snapshot; emit PrintDiff
             else mret tt);;
            store_cache cached_file T;;
            set__extractor (PublicSuffixList T);;
            mret (PublicSuffixList T)
      end
  end.

(** [_extract] has no [return]: its value is [None]. *)
Definition _extract (host : PyTyping.pyobj) : M pyvalue :=
  e ← _get_tld_extractor;
  pair ← lift (extract e host);
  let '(registered_domain, tld) := pair in
  parts ← lift (PyTyping.rpartition_ registered_domain (PyTyping.Str "."));
  let '(subdomain, _, domain) := parts in
  set_tld tld;;
  set_subdomain subdomain;;
  set_domain domain;;
  mret PyNone.

Definition __call__ (host : PyTyping.pyobj) : M pyvalue := _extract host.

(** A client calling the extractor on one host after another; a call
    that raises leaves the object as the exception found it. *)
Fixpoint run_calls (hosts : list PyTyping.pyobj) (h : Heap) : Heap :=
  match hosts with
  | [] => h
  | host :: hosts' => run_calls hosts' (__call__ host h).2
  end.

End Provider.

(** A deployment for the examples: the cache file holds the pickle of
    two rules, the network is unreachable and the bundled snapshot holds
    one rule. *)
Definition example_world : World :=
  {| files := {[ "/pkg/.tld_set" := Pickled {[ "com"; "co.uk" ]} ]};
     write := WriteOk;
     remote := URLError;
     snapshot := Some {[ "com" ]};
     debug := false;
     trace := [] |}.
Definition example_heap : Heap :=
  mkHeap (__init__ "/pkg/.tld_set" false "") example_world.

(** * Properties *)

(** The fields of an [ExtractResult] by position and by name. *)
Lemma ExtractResult_access (r : ExtractResult.t) :
  ExtractResult.getattr r "subdomain" = ExtractResult.getitem r 0
  ∧ ExtractResult.getattr r "domain" = ExtractResult.getitem r 1
  ∧ ExtractResult.getattr r "tld" = ExtractResult.getitem r 2
  ∧ ExtractResult.as_tuple r
    = [ExtractResult.subdomain r; ExtractResult.domain r; ExtractResult.tld r].
Proof. done. Qed.

(** ** The matcher *)

(** The first statement of [extract] raises, so the loop is never
    entered: whatever the rule set and the string object, [extract]
    raises [TypeError]. *)
Lemma extract_type_error (P : _PublicSuffixListTLDExtractor)
    (netloc : PyTyping.pyobj) :
  extract P netloc = PyTyping.TypeError.
Proof. unfold extract. by destruct netloc. Qed.

Lemma octets_bytes (bs : list string) :
  PyTyping.octets (PyTyping.Bytes <$> bs) = PyTyping.Ok bs.
Proof.
  induction bs as [|b bs IH]; [done |].
  rewrite fmap_cons. cbn [PyTyping.octets]. by rewrite IH.
Qed.

Lemma join_bytes (sep : string) (bs : list string) :
  PyTyping.join_ (PyTyping.Bytes sep) (PyTyping.Bytes <$> bs)
  = PyTyping.Ok (PyTyping.Bytes (PyStr.join sep bs)).
Proof. unfold PyTyping.join_. by rewrite octets_bytes. Qed.

(** The loop itself, were it entered with byte-string labels, would find
    no rule: its keys are byte strings and the rules are text strings. *)
Lemma extract_loop_bytes_no_match (T : gset string) (netloc : PyTyping.pyobj)
    (bs : list string) (idx : list nat) :
  extract_loop T netloc (PyTyping.Bytes <$> bs) idx
  = PyTyping.Ok (netloc, PyTyping.Bytes "").
Proof.
  induction idx as [|i idx IH]; [done |].
  cbn [extract_loop]. rewrite <- !fmap_drop, !join_bytes.
  by cbn.
Qed.

(** C1 (the code misses it): on the host of the module docstring, given
    as text or as bytes and under any rule set, [extract] raises
    [TypeError]: there is no triple to rejoin. *)
Theorem extract_cnn_raises (P : _PublicSuffixListTLDExtractor) :
  extract P (PyTyping.Str "forums.news.cnn.com") = PyTyping.TypeError
  ∧ extract P (PyTyping.Bytes "forums.news.cnn.com") = PyTyping.TypeError.
Proof. by split. Qed.

(** C4 (the code misses it): with [uk] and [co.uk] both rules, [extract]
    raises [TypeError] on [forums.bbc.co.uk] before any candidate suffix
    is tried; no suffix is returned, neither the longer nor the
    shorter. *)
Theorem extract_bbc_raises :
  extract (PublicSuffixList {[ "uk"; "co.uk" ]})
    (PyTyping.Str "forums.bbc.co.uk")
  = PyTyping.TypeError
  ∧ extract (PublicSuffixList {[ "uk"; "co.uk" ]})
      (PyTyping.Bytes "forums.bbc.co.uk")
    = PyTyping.TypeError.
Proof. by split. Qed.

(** C5 (the code misses it): with [*.ck] and [!www.ck] in the set,
    [extract] raises [TypeError] on [www.ck]; the exception rule is
    never looked up and the parts [('', 'www', 'ck')] are not
    produced. *)
Theorem extract_www_ck_raises :
  extract (PublicSuffixList {[ "*.ck"; "!www.ck" ]}) (PyTyping.Str "www.ck")
  = PyTyping.TypeError
  ∧ extract (PublicSuffixList {[ "*.ck"; "!www.ck" ]})
      (PyTyping.Bytes "www.ck")
    = PyTyping.TypeError.
Proof. by split. Qed.

(** C6 (the code misses it): with [*.ck] in the set, [extract] raises
    [TypeError] on [foo.bar.ck]; the wildcard rule is never looked up
    and no suffix [bar.ck] is returned. *)
Theorem extract_foo_bar_ck_raises :
  extract (PublicSuffixList {[ "*.ck" ]}) (PyTyping.Str "foo.bar.ck")
  = PyTyping.TypeError
  ∧ extract (PublicSuffixList {[ "*.ck" ]}) (PyTyping.Bytes "foo.bar.ck")
    = PyTyping.TypeError.
Proof. by split. Qed.

(** C7 (the code misses it): on [localhost], which no rule of the set
    matches, [extract] raises [TypeError]; the pair of the whole host
    and an empty suffix, which the last line of [extract] would return,
    is not returned. *)
Theorem extract_localhost_raises :
  extract (PublicSuffixList {[ "com"; "co.uk" ]}) (PyTyping.Str "localhost")
  = PyTyping.TypeError
  ∧ extract (PublicSuffixList {[ "com"; "co.uk" ]})
      (PyTyping.Bytes "localhost")
    = PyTyping.TypeError.
Proof. by split. Qed.

(** ** The extractor object *)

Lemma list_to_set_empty_nil (l : list string) :
  (list_to_set l : gset string) = ∅ ↔ l = [].
Proof.
  split; [| by intros ->].
  destruct l as [|x l]; [done |]. intros Hempty. exfalso.
  apply (not_elem_of_empty (C := gset string) x). rewrite <- Hempty.
  apply elem_of_list_to_set. by left.
Qed.

Section ProviderFacts.

Variable tld_finder : string → list string.

Ltac run := unfold __call__, _extract, _get_tld_extractor,
  _PublicSuffixListSource, _fetch_page, load_cache, log_cache_miss,
  load_snapshot, store_cache, put_file, set__extractor, set_tld,
  set_subdomain, set_domain, emit, lift, get_self, get_world, put_self,
  put_world, raise, mbind, M_bind, mret, M_ret; simpl.

(** The events a resolution has put before an older trace. *)
Ltac events_before l tr :=
  lazymatch l with
  | tr => constr:(@nil event)
  | ?x :: ?l' => let r := events_before l' tr in constr:(x :: r)
  end.

Lemma get_resolved (h : Heap) (e : _PublicSuffixListTLDExtractor) :
  _extractor (self h) = Some e →
  _get_tld_extractor tld_finder h = (Return e, h).
Proof. intros He. run. by rewrite He. Qed.

(** A resolution that returns has stored what it returns. *)
Lemma get_stores (h h1 : Heap) (e : _PublicSuffixListTLDExtractor) :
  _get_tld_extractor tld_finder h = (Return e, h1) →
  _extractor (self h1) = Some e.
Proof.
  destruct h as [[f cf ex t d sd] [fs wr rm sn dbg tr]].
  run. intros Heq.
  repeat (case_match; simplify_eq/=); done.
Qed.

(** A call is the resolution followed by the [TypeError] of [extract]:
    the three assignments are never reached. *)
Lemma call_after_get (host : PyTyping.pyobj) (h : Heap) :
  __call__ tld_finder host h
  = match _get_tld_extractor tld_finder h with
    | (Return e, h1) => (Raise TypeError, h1)
    | (Raise x, h1) => (Raise x, h1)
    end.
Proof.
  unfold __call__, _extract. unfold mbind at 1. unfold M_bind at 1.
  destruct (_get_tld_extractor tld_finder h) as [[e|x] h1]; [| done].
  by rewrite extract_type_error.
Qed.

Lemma call_resolved (host : PyTyping.pyobj) (h : Heap)
    (e : _PublicSuffixListTLDExtractor) :
  _extractor (self h) = Some e →
  __call__ tld_finder host h = (Raise TypeError, h).
Proof.
  intros He. by rewrite call_after_get, (get_resolved h e He).
Qed.

Lemma run_calls_resolved (hosts : list PyTyping.pyobj) (h : Heap)
    (e : _PublicSuffixListTLDExtractor) :
  _extractor (self h) = Some e →
  run_calls tld_finder hosts h = h.
Proof.
  intros He. induction hosts as [|host hosts IH]; [done |].
  simpl. by rewrite (call_resolved host h e He).
Qed.

(** A resolution never touches the three parts. *)
Lemma get_keeps_parts (h : Heap) :
  let o := self (_get_tld_extractor tld_finder h).2 in
  (subdomain o, domain o, tld o)
  = (subdomain (self h), domain (self h), tld (self h)).
Proof.
  destruct h as [[f cf ex t d sd] [fs wr rm sn dbg tr]].
  run. repeat (case_match; simplify_eq/=); done.
Qed.

(** C2 (the code misses it): a call of the extractor never returns an
    [ExtractResult]; it returns [None] or raises. *)
Theorem call_returns_None (host : PyTyping.pyobj) (h : Heap) :
  (__call__ tld_finder host h).1 = Return PyNone
  ∨ ∃ x, (__call__ tld_finder host h).1 = Raise x.
Proof.
  rewrite call_after_get.
  destruct (_get_tld_extractor tld_finder h) as [[e|x] h1];
    right; by eexists.
Qed.

(** C8: once a resolution has returned, the object holds its extractor;
    from then on, in whatever state the world is and after any further
    calls of the object, a resolution returns that same extractor and
    changes neither the object nor the world: no file is opened, nothing
    is fetched, the snapshot is not loaded. *)
Theorem resolution_memoized (h h1 : Heap) (e : _PublicSuffixListTLDExtractor)
    (hosts : list PyTyping.pyobj) (w : World) :
  _get_tld_extractor tld_finder h = (Return e, h1) →
  let h2 := run_calls tld_finder hosts (mkHeap (self h1) w) in
  _get_tld_extractor tld_finder h2 = (Return e, h2) ∧ world h2 = w.
Proof.
  intros Hres h2. apply get_stores in Hres. subst h2.
  rewrite (run_calls_resolved hosts (mkHeap (self h1) w) e Hres).
  split; [by apply get_resolved | done].
Qed.

(** C9 (the code misses it): with no extractor resolved yet, fetching
    disabled and a cache file that holds the pickle of a rule set, the
    resolution does not use that set: reading the file fails and is
    logged, the snapshot is loaded, and the extractor is built from the
    snapshot's rules. *)
Theorem cache_file_never_loaded (h : Heap) (s s0 : gset string) :
  _extractor (self h) = None →
  fetch (self h) = false →
  files (world h) !! cache_file (self h) = Some (Pickled s) →
  snapshot (world h) = Some s0 →
  _get_tld_extractor tld_finder h
  = (Return (PublicSuffixList s0),
     mkHeap
       (mkTLDExtract (fetch (self h)) (cache_file (self h))
          (Some (PublicSuffixList s0))
          (tld (self h)) (domain (self h)) (subdomain (self h)))
       (mkWorld (files (world h)) (write (world h)) (remote (world h))
          (snapshot (world h)) (debug (world h))
          (LoadSnapshot :: LogError :: OpenRead (cache_file (self h))
             :: trace (world h)))).
Proof.
  destruct h as [[f cf ex t d sd] [fs wr rm sn dbg tr]]. simpl.
  intros -> -> Hfile ->. run. by rewrite Hfile.
Qed.

(** C10 (the code misses it): every call of the extractor raises, and
    the attributes [subdomain], [domain] and [tld] are after the call
    what they were before it: no call stores the parts of its host.  A
    freshly constructed object holds three empty strings. *)
Theorem call_stores_nothing (host : PyTyping.pyobj) (h : Heap) :
  (∃ x, (__call__ tld_finder host h).1 = Raise x)
  ∧ (let o := self (__call__ tld_finder host h).2 in
     (subdomain o, domain o, tld o)
     = (subdomain (self h), domain (self h), tld (self h)))
  ∧ (∀ default_cache_file fetch0 cache_file0,
       let o := __init__ default_cache_file fetch0 cache_file0 in
       (subdomain o, domain o, tld o)
       = (PyTyping.Str "", PyTyping.Str "", PyTyping.Str "")).
Proof.
  pose proof (get_keeps_parts h) as Hparts.
  rewrite call_after_get.
  destruct (_get_tld_extractor tld_finder h) as [[e|x] h1];
    (split_and!; [by eexists | done | done]).
Qed.

(** X9: a resolution returns an extractor, and stores it on the object,
    whenever the bundled snapshot loads and either fetching is disabled,
    or the network fails with nothing but [URLError] and the write of
    the cache file with nothing but [IOError]: a missing, unreadable or
    corrupt cache file, an unreachable network and a cache file that
    cannot be written never make it raise. *)
Theorem resolution_never_fails (h : Heap) (s0 : gset string) :
  snapshot (world h) = Some s0 →
  fetch (self h) = false
  ∨ remote (world h) ≠ UrlFailure
    ∧ write (world h) ≠ OpenOtherError ∧ write (world h) ≠ DumpOtherError →
  ∃ e h1, _get_tld_extractor tld_finder h = (Return e, h1)
          ∧ _extractor (self h1) = Some e.
Proof.
  intros Hsnap Hnet.
  destruct h as [[f cf ex t d sd] [fs wr rm sn dbg tr]]. simpl in *. subst sn.
  run.
  destruct ex as [e|]; [by eauto |].
  repeat (case_match; simplify_eq/=); eauto;
    destruct Hnet as [? | (? & ? & ?)]; done.
Qed.

(** X10: a resolution raises only while the object has no extractor yet,
    and only because the snapshot cannot be loaded, the fetch failed
    with something other than [URLError], or the write of the cache file
    failed with something other than [IOError]; it then leaves every
    attribute of the object as it was, so the next call resolves
    again. *)
Theorem failed_resolution_changes_nothing (h h1 : Heap) (x : exn) :
  _get_tld_extractor tld_finder h = (Raise x, h1) →
  self h1 = self h ∧ _extractor (self h) = None
  ∧ (x = SnapshotError ∧ snapshot (world h) = None
     ∨ x = FetchError ∧ fetch (self h) = true
       ∧ remote (world h) = UrlFailure
     ∨ x = WriteError ∧ fetch (self h) = true
       ∧ (write (world h) = OpenOtherError
          ∨ write (world h) = DumpOtherError)).
Proof.
  destruct h as [[f cf ex t d sd] [fs wr rm sn dbg tr]]. simpl.
  run. intros Hres.
  repeat (case_match; simplify_eq/=); split_and!;
    (done || (left; by split) || (right; left; by split_and!)
     || (right; right; split_and!; [done | done | by left])
     || (right; right; split_and!; [done | done | by right])).
Qed.


(** X12: when the cache file gives no set (it is missing, unreadable or
    corrupt) and the fetch gives no rule (it is disabled, the network
    answers with [URLError], or the page holds no rule token), the
    extractor is built from the bundled snapshot, loaded last, and the
    file system is left as it was: the snapshot is not written to the
    cache file. *)
Theorem snapshot_fallback (h : Heap) (s : gset string) :
  _extractor (self h) = None →
  (∀ c, files (world h) !! cache_file (self h) ≠ Some (Pickled c)) →
  fetch (self h) = false
  ∨ remote (world h) = URLError ∧ tld_finder "" = []
  ∨ (∃ text, remote (world h) = Page text ∧ tld_finder text = []) →
  snapshot (world h) = Some s →
  let r := _get_tld_extractor tld_finder h in
  r.1 = Return (PublicSuffixList s)
  ∧ _extractor (self r.2) = Some (PublicSuffixList s)
  ∧ files (world r.2) = files (world h)
  ∧ ∃ evs, trace (world r.2)
           = LoadSnapshot :: evs
             ++ OpenRead (cache_file (self h)) :: trace (world h)
      ∧ Forall (λ ev, ev = LogError ∨ ev = UrlOpen) evs.
Proof.
  destruct h as [[f cf ex t d sd] [fs wr rm sn dbg tr]]. simpl.
  intros -> Hmiss Hnone ->.
  run.
  assert (Hleaf : ∀ mid : list event,
    Forall (λ ev, ev = LogError ∨ ev = UrlOpen) mid →
    ∃ evs, LoadSnapshot :: mid ++ OpenRead cf :: tr
           = LoadSnapshot :: evs ++ OpenRead cf :: tr
      ∧ Forall (λ ev, ev = LogError ∨ ev = UrlOpen) evs).
  { intros mid Hmid. by exists mid. }
  destruct (fs !! cf) as [[c| |]|] eqn:Hfile; simpl;
    [ by destruct (Hmiss c) | | | ];
    (destruct Hnone as [-> | [[-> Hfind] | (text & -> & Hfind)]];
     [ | destruct f | destruct f ]); simpl; rewrite ?Hfind;
    simpl; rewrite ?decide_True by done; simpl;
    do 3 (split; [done |]);
    lazymatch goal with
    | |- ∃ evs, LoadSnapshot :: ?l = _ ∧ _ =>
        let mid := events_before l (OpenRead cf :: tr) in apply (Hleaf mid)
    end;
    repeat (constructor; [(by left) || (by right) |]); constructor.
Qed.

(** X13: when fetching is enabled, the page holds at least one rule
    token and debug logging is off, the rules of the page are written
    to the cache file without loading the snapshot, and the outcome
    follows the write.  When it succeeds, or fails with [IOError] (a
    warning is logged), the extractor is built from the fetched rules;
    when it fails with another exception the resolution raises and the
    object stays without an extractor.  The cache file holds the pickle
    after a success, is left as it was when [open] failed, and is
    created or truncated when [pickle.dump] failed. *)
Theorem fetched_rules_used (h : Heap) (text : string) :
  _extractor (self h) = None →
  fetch (self h) = true →
  remote (world h) = Page text →
  tld_finder text ≠ [] →
  debug (world h) = false →
  let T : gset string := list_to_set (tld_finder text) in
  let p := cache_file (self h) in
  let r := _get_tld_extractor tld_finder h in
  (r.1, _extractor (self r.2))
  = match write (world h) with
    | OpenOtherError | DumpOtherError => (Raise WriteError, None)
    | _ => (Return (PublicSuffixList T), Some (PublicSuffixList T))
    end
  ∧ files (world r.2)
    = match write (world h) with
      | WriteOk => <[p := Pickled T]> (files (world h))
      | DumpIOError | DumpOtherError => <[p := Corrupt]> (files (world h))
      | OpenIOError | OpenOtherError => files (world h)
      end
  ∧ ∃ mid, trace (world r.2)
           = match write (world h) with
             | OpenIOError | DumpIOError => [LogWarn]
             | _ => []
             end
             ++ [OpenWrite p; LogInfo; UrlOpen] ++ mid
             ++ OpenRead p :: trace (world h)
      ∧ (mid = [] ∨ mid = [LogError]).
Proof.
  destruct h as [[f cf ex t d sd] [fs wr rm sn dbg tr]]. simpl.
  intros -> -> -> Hfound ->.
  assert (Hne : (list_to_set (tld_finder text) : gset string) ≠ ∅).
  { by rewrite list_to_set_empty_nil. }
  run.
  destruct (fs !! cf) as [[c| |]|] eqn:Hfile; simpl;
    rewrite decide_False by done; simpl;
    destruct wr; simpl;
    (split; [done |]); (split; [done |]);
    first [ by (exists []; split; [done | by left])
          | by (exists [LogError]; split; [done | by right]) ].
Qed.

(** X16: with debug logging on, the rules of a successful fetch are not
    enough: the snapshot is loaded for the diff before the rules are
    written or stored, so when it cannot be loaded the resolution raises,
    the file system is left as it was and the object stays without an
    extractor. *)
Theorem debug_diff_needs_snapshot (h : Heap) (text : string) :
  _extractor (self h) = None →
  (∀ c, files (world h) !! cache_file (self h) ≠ Some (Pickled c)) →
  fetch (self h) = true →
  remote (world h) = Page text →
  tld_finder text ≠ [] →
  debug (world h) = true →
  snapshot (world h) = None →
  let r := _get_tld_extractor tld_finder h in
  r.1 = Raise SnapshotError
  ∧ self r.2 = self h
  ∧ files (world r.2) = files (world h).
Proof.
  destruct h as [[f cf ex t d sd] [fs wr rm sn dbg tr]]. simpl.
  intros -> Hmiss -> -> Hfound -> ->.
  assert (Hne : (list_to_set (tld_finder text) : gset string) ≠ ∅).
  { by rewrite list_to_set_empty_nil. }
  run.
  destruct (fs !! cf) as [[c| |]|] eqn:Hfile; simpl;
    [ by destruct (Hmiss c) | | | ];
    rewrite decide_False by done; by simpl.
Qed.

(** X14: on an object that holds an extractor, every call raises
    [TypeError] and changes neither the object nor the world: the three
    parts are never overwritten, whatever the host and the rules. *)
Theorem call_on_resolved_object (host : PyTyping.pyobj) (h : Heap)
    (e : _PublicSuffixListTLDExtractor) :
  _extractor (self h) = Some e →
  __call__ tld_finder host h = (Raise TypeError, h).
Proof.
  intros He. rewrite call_after_get.
  unfold _get_tld_extractor, get_self, mbind, M_bind, mret, M_ret.
  by rewrite He.
Qed.

(** X15: a call changes the object and the world as the resolution
    alone does; it raises what the resolution raises and, when the
    resolution returns, [TypeError].  So the first call on a fresh
    object fails and yet leaves on the object the extractor it
    resolved. *)
Theorem call_is_resolution_then_raise (host : PyTyping.pyobj) (h : Heap) :
  let r := _get_tld_extractor tld_finder h in
  (__call__ tld_finder host h).2 = r.2
  ∧ (__call__ tld_finder host h).1
    = match r.1 with
      | Return _ => Raise TypeError
      | Raise x => Raise x
      end
  ∧ match r.1 with
    | Return e => _extractor (self r.2) = Some e
    | Raise _ => _extractor (self r.2) = _extractor (self h)
    end.
Proof.
  simpl. rewrite call_after_get.
  destruct (_get_tld_extractor tld_finder h) as [[e|x] h1] eqn:Hres; simpl;
    (split_and!; [done | done |]).
  - by apply (get_stores h).
  - revert Hres. destruct h as [[f cf ex t d sd] [fs wr rm sn dbg tr]].
    run. intros Hres. repeat (case_match; simplify_eq/=); done.
Qed.

End ProviderFacts.

(** The branches of the resolution on the example deployment.  Its
    cache file is never loaded; without fetching the snapshot is used;
    with fetching and a page that yields rules, the rules are written to
    the cache file and used; with fetching and an unreachable network
    the snapshot is loaded after the logged failures. *)
Example resolve_snapshot :
  let r := _get_tld_extractor (λ _, ["org"]) example_heap in
  r.1 = Return (PublicSuffixList {[ "com" ]})
  ∧ trace (world r.2) = [LoadSnapshot; LogError; OpenRead "/pkg/.tld_set"].
Proof. vm_compute. by split. Qed.

Example resolve_fetch :
  let h := mkHeap (__init__ "/pkg/.tld_set" true "")
             (mkWorld ∅ WriteOk (Page "org") (Some {[ "com" ]}) false []) in
  let r := _get_tld_extractor (λ _, ["org"]) h in
  r.1 = Return (PublicSuffixList (list_to_set ["org"]))
  ∧ files (world r.2) !! "/pkg/.tld_set" = Some (Pickled (list_to_set ["org"]))
  ∧ trace (world r.2)
    = [OpenWrite "/pkg/.tld_set"; LogInfo; UrlOpen; OpenRead "/pkg/.tld_set"].
Proof. vm_compute. by split_and!. Qed.

Example resolve_fetch_unreachable :
  let h := mkHeap (__init__ "/pkg/.tld_set" true "")
             (mkWorld ∅ WriteOk URLError (Some {[ "com" ]}) false []) in
  let r := _get_tld_extractor (λ _, []) h in
  r.1 = Return (PublicSuffixList {[ "com" ]})
  ∧ trace (world r.2)
    = [LoadSnapshot; LogError; UrlOpen; OpenRead "/pkg/.tld_set"].
Proof. vm_compute. by split. Qed.

(** The docstring's call on the example deployment: it raises, after the
    resolution has stored the snapshot's rules, and the three parts stay
    empty. *)
Example call_cnn :
  let r := __call__ (λ _, []) (PyTyping.Str "forums.news.cnn.com")
             example_heap in
  r.1 = Raise TypeError
  ∧ _extractor (self r.2) = Some (PublicSuffixList {[ "com" ]})
  ∧ (subdomain (self r.2), domain (self r.2), tld (self r.2))
    = (PyTyping.Str "", PyTyping.Str "", PyTyping.Str "").
Proof. vm_compute. by split_and!. Qed.

Lemma resolution_memoized_witness :
  let h2 := run_calls (λ _, [])
              [PyTyping.Str "forums.news.cnn.com";
               PyTyping.Str "forums.bbc.co.uk"]
              (mkHeap (self (_get_tld_extractor (λ _, []) example_heap).2)
                 example_world) in
  _get_tld_extractor (λ _, []) h2
  = (Return (PublicSuffixList {[ "com" ]}), h2)
  ∧ world h2 = example_world.
Proof.
  apply (resolution_memoized (λ _, []) example_heap
           (_get_tld_extractor (λ _, []) example_heap).2).
  vm_compute. reflexivity.
Defined.

Lemma cache_file_never_loaded_witness :
  _get_tld_extractor (λ _, []) example_heap
  = (Return (PublicSuffixList {[ "com" ]}),
     mkHeap
       (mkTLDExtract false "/pkg/.tld_set"
          (Some (PublicSuffixList {[ "com" ]}))
          (PyTyping.Str "") (PyTyping.Str "") (PyTyping.Str ""))
       (mkWorld (files example_world) WriteOk URLError (Some {[ "com" ]})
          false [LoadSnapshot; LogError; OpenRead "/pkg/.tld_set"])).
Proof.
  apply (cache_file_never_loaded (λ _, []) example_heap
           {[ "com"; "co.uk" ]} {[ "com" ]}).
  - reflexivity.
  - reflexivity.
  - vm_compute. reflexivity.
  - reflexivity.
Defined.

Lemma resolution_never_fails_witness :
  ∃ e h1,
    _get_tld_extractor (λ page, [page])
      (mkHeap (__init__ "/pkg/.tld_set" true "")
         (mkWorld {[ "/pkg/.tld_set" := Corrupt ]} DumpIOError (Page "com")
            (Some {[ "com" ]}) true []))
    = (Return e, h1)
    ∧ _extractor (self h1) = Some e.
Proof.
  apply (resolution_never_fails (λ page, [page]) _ {[ "com" ]}).
  - reflexivity.
  - right. simpl. split_and!; discriminate.
Defined.

Lemma failed_resolution_changes_nothing_witness :
  let h := mkHeap (__init__ "/pkg/.tld_set" true "")
             (mkWorld ∅ OpenOtherError (Page "com") (Some {[ "org" ]})
                false []) in
  self (_get_tld_extractor (λ page, [page]) h).2 = self h
  ∧ _extractor (self h) = None
  ∧ (WriteError = SnapshotError ∧ snapshot (world h) = None
     ∨ WriteError = FetchError ∧ fetch (self h) = true
       ∧ remote (world h) = UrlFailure
     ∨ WriteError = WriteError ∧ fetch (self h) = true
       ∧ (write (world h) = OpenOtherError
          ∨ write (world h) = DumpOtherError)).
Proof.
  intros h.
  apply (failed_resolution_changes_nothing (λ page, [page]) h).
  vm_compute. reflexivity.
Defined.

Lemma snapshot_fallback_witness :
  let h := mkHeap (__init__ "/pkg/.tld_set" true "")
             (mkWorld {[ "/pkg/.tld_set" := Corrupt ]} WriteOk URLError
                (Some {[ "com" ]}) false []) in
  let r := _get_tld_extractor (λ _, []) h in
  r.1 = Return (PublicSuffixList {[ "com" ]})
  ∧ _extractor (self r.2) = Some (PublicSuffixList {[ "com" ]})
  ∧ files (world r.2) = files (world h)
  ∧ ∃ evs, trace (world r.2)
           = LoadSnapshot :: evs
             ++ OpenRead (cache_file (self h)) :: trace (world h)
      ∧ Forall (λ ev, ev = LogError ∨ ev = UrlOpen) evs.
Proof.
  intros h. apply (snapshot_fallback (λ _, []) h {[ "com" ]}).
  - reflexivity.
  - intros c. vm_compute. discriminate.
  - right. left. split; reflexivity.
  - reflexivity.
Defined.

Lemma fetched_rules_used_witness :
  let h := mkHeap (__init__ "/pkg/.tld_set" true "")
             (mkWorld ∅ OpenIOError (Page "com") (Some {[ "org" ]})
                false []) in
  let r := _get_tld_extractor (λ page, [page]) h in
  (r.1, _extractor (self r.2))
  = (Return (PublicSuffixList (list_to_set ["com"])),
     Some (PublicSuffixList (list_to_set ["com"])))
  ∧ files (world r.2) = files (world h)
  ∧ ∃ mid, trace (world r.2)
           = [LogWarn] ++ [OpenWrite (cache_file (self h)); LogInfo; UrlOpen]
             ++ mid ++ OpenRead (cache_file (self h)) :: trace (world h)
      ∧ (mid = [] ∨ mid = [LogError]).
Proof.
  intros h. apply (fetched_rules_used (λ page, [page]) h "com").
  - reflexivity.
  - reflexivity.
  - reflexivity.
  - simpl. discriminate.
  - reflexivity.
Defined.

Lemma debug_diff_needs_snapshot_witness :
  let h := mkHeap (__init__ "/pkg/.tld_set" true "")
             (mkWorld ∅ WriteOk (Page "com") None true []) in
  let r := _get_tld_extractor (λ page, [page]) h in
  r.1 = Raise SnapshotError
  ∧ self r.2 = self h
  ∧ files (world r.2) = files (world h).
Proof.
  intros h. apply (debug_diff_needs_snapshot (λ page, [page]) h "com").
  - reflexivity.
  - intros c. vm_compute. discriminate.
  - reflexivity.
  - reflexivity.
  - simpl. discriminate.
  - reflexivity.
  - reflexivity.
Defined.

Lemma call_on_resolved_object_witness :
  let h := mkHeap
             (mkTLDExtract true "/pkg/.tld_set"
                (Some (PublicSuffixList {[ "uk"; "co.uk" ]}))
                (PyTyping.Str "") (PyTyping.Str "") (PyTyping.Str ""))
             example_world in
  __call__ (λ _, []) (PyTyping.Bytes "forums.bbc.co.uk") h
  = (Raise TypeError, h).
Proof.
  intros h.
  apply (call_on_resolved_object (λ _, []) _ h
           (PublicSuffixList {[ "uk"; "co.uk" ]})).
  reflexivity.
Defined.

(** ** The typing of line 203 *)

(** C3 (the code misses it): whatever string object [extract] receives,
    text or bytes, its first statement raises [TypeError]; the loop is
    never reached. *)
Theorem extract_spl_raises (netloc : PyTyping.pyobj) :
  PyTyping.extract_spl netloc = PyTyping.TypeError.
Proof. by destruct netloc. Qed.

(** ** The methods of [ExtractResult] *)

(** X1: [_make] returns a result exactly for a sequence of three items,
    and that result has these items as its tuple; for every other length
    it raises [TypeError].  So [_make] undoes the tuple view, also the
    one [__getnewargs__] hands to copy and pickle. *)
Theorem make_three_items (l : list string) (r : ExtractResult.t) :
  (ExtractResult._make l = inr r ↔ l = ExtractResult.as_tuple r)
  ∧ (ExtractResult._make l = inl ExtractResult.TypeError ↔ length l ≠ 3)
  ∧ ExtractResult._make (ExtractResult.__getnewargs__ r) = inr r.
Proof.
  unfold ExtractResult._make, ExtractResult.__getnewargs__,
    ExtractResult.as_tuple.
  split_and!.
  - destruct l as [|a [|b [|c [|d l]]]]; simpl; destruct r as [x y z];
      simpl; split; intros H; by simplify_eq.
  - case_decide; split; intros Hm; by simplify_eq.
  - by destruct r.
Qed.

Lemma difference_three_empty (a b c : string) (D : gset string) :
  D ∖ {[a]} ∖ {[b]} ∖ {[c]} = ∅ ↔ D ⊆ ({[ a; b; c ]} : gset string).
Proof.
  split.
  - intros Hempty x Hx.
    rewrite !elem_of_union, !elem_of_singleton.
    destruct (decide (x = a)) as [->|Ha]; [tauto |].
    destruct (decide (x = b)) as [->|Hb]; [tauto |].
    destruct (decide (x = c)) as [->|Hc]; [tauto |].
    exfalso. apply (not_elem_of_empty (C := gset string) x).
    rewrite <- Hempty.
    rewrite !elem_of_difference, !elem_of_singleton. tauto.
  - intros Hsub. apply set_eq. intros x.
    rewrite !elem_of_difference, !elem_of_singleton.
    split; [| intros Hx; by apply not_elem_of_empty in Hx].
    intros (((Hx & Ha) & Hb) & Hc). apply Hsub in Hx.
    rewrite !elem_of_union, !elem_of_singleton in Hx. tauto.
Qed.

(** The keywords left after popping three keys. *)
Lemma delete_three_empty (a b c : string) (kwds : gmap string string) :
  delete c (delete b (delete a kwds)) = ∅
  ↔ dom kwds ⊆ ({[ a; b; c ]} : gset string).
Proof.
  rewrite <- dom_empty_iff_L, !dom_delete_L.
  apply difference_three_empty.
Qed.

(** X2: [_replace] raises [TypeError] exactly when one of the keywords
    is named [self], which collides with the method's own parameter;
    otherwise it raises [ValueError] exactly when a keyword is not one
    of the three field names, and otherwise returns the result in which
    each named field has the keyword's value and every other field is
    kept. *)
Theorem replace_fields (r : ExtractResult.t) (kwds : gmap string string) :
  ExtractResult._replace r kwds
  = if decide ("self" ∈ dom kwds) then inl ExtractResult.TypeError
    else if decide (dom kwds
                    ⊆ ({[ "subdomain"; "domain"; "tld" ]} : gset string))
    then inr (ExtractResult.new
                (default (ExtractResult.subdomain r) (kwds !! "subdomain"))
                (default (ExtractResult.domain r) (kwds !! "domain"))
                (default (ExtractResult.tld r) (kwds !! "tld")))
    else inl ExtractResult.ValueError.
Proof.
  unfold ExtractResult._replace, ExtractResult.pop, ExtractResult._make.
  destruct (decide ("self" ∈ dom kwds)) as [Hself|Hself]; [done |].
  simpl. rewrite !lookup_delete_ne by done.
  destruct (decide (dom kwds ⊆ _)) as [Hsub|Hsub].
  - by rewrite decide_True by (by apply delete_three_empty).
  - rewrite decide_False; [done |]. by rewrite delete_three_empty.
Qed.

(** X3: the dictionary of [_asdict] has the three field names as its
    keys and under each the value attribute access gives; feeding it as
    keywords to [_replace] of any result rebuilds the result it came
    from. *)
Theorem asdict_replace (r r0 : ExtractResult.t) :
  (∀ name, ExtractResult._asdict r !! name = ExtractResult.getattr r name)
  ∧ dom (ExtractResult._asdict r)
    = ({[ "subdomain"; "domain"; "tld" ]} : gset string)
  ∧ ExtractResult._replace r0 (ExtractResult._asdict r) = inr r.
Proof.
  assert (Hlook : ∀ name,
    ExtractResult._asdict r !! name = ExtractResult.getattr r name).
  { intros name. unfold ExtractResult._asdict, ExtractResult.getattr.
    simpl. repeat case_decide; subst; simplify_map_eq; done. }
  assert (Hdom : dom (ExtractResult._asdict r)
                 = ({[ "subdomain"; "domain"; "tld" ]} : gset string)).
  { unfold ExtractResult._asdict. simpl. rewrite !dom_insert_L. set_solver. }
  split_and!; [done | done |].
  unfold ExtractResult._replace, ExtractResult.pop, ExtractResult._make.
  rewrite decide_False.
  - simpl. rewrite !lookup_delete_ne by done. rewrite !Hlook.
    rewrite decide_True by (apply delete_three_empty; by rewrite Hdom).
    by destruct r.
  - rewrite Hdom, !elem_of_union, !elem_of_singleton.
    intros [[?|?]|?]; done.
Qed.

Lemma replace_fields_self_keyword :
  ExtractResult._replace (ExtractResult.new "www" "cnn" "com")
    {[ "self" := "x" ]}
  = inl ExtractResult.TypeError.
Proof. vm_compute. reflexivity. Qed.
